(** * Shallow embedding of dart::neural::DifferentiableContactConstraint
      and dart::constraint::DantzigBoxedLcpSolver::solve (diffdart).

    Scalars (double) are modelled as real numbers; Eigen's Vector3d and
    Vector6d as records.  The kinematics oracle (DegreeOfFreedom, BodyNode,
    Joint) and the dart::math helpers that live outside this source tree are
    interfaces (type classes); every theorem about the constraint holds for
    every implementation of them. *)

From Stdlib Require Import Reals Lra Lia ZArith String List Bool.
Import ListNotations.
Open Scope R_scope.

(** ** Eigen vectors *)

Record Vector3 := mkVector3 { v3x : R; v3y : R; v3z : R }.

Definition Vector3_Zero : Vector3 := mkVector3 0 0 0.

Definition Vector3_add (a b : Vector3) : Vector3 :=
  mkVector3 (v3x a + v3x b) (v3y a + v3y b) (v3z a + v3z b).

(** [a.cross(b)] *)
Definition cross (a b : Vector3) : Vector3 :=
  mkVector3 (v3y a * v3z b - v3z a * v3y b)
            (v3z a * v3x b - v3x a * v3z b)
            (v3x a * v3y b - v3y a * v3x b).

(** [a.dot(b)] *)
Definition dot3 (a b : Vector3) : R :=
  v3x a * v3x b + v3y a * v3y b + v3z a * v3z b.

(** [a.squaredNorm()] *)
Definition squaredNorm (a : Vector3) : R := dot3 a a.

(** A 6-vector split as Eigen's [head<3>()] and [tail<3>()]. *)
Record Vector6 := mkVector6 { head : Vector3; tail : Vector3 }.

Definition Vector6_Zero : Vector6 := mkVector6 Vector3_Zero Vector3_Zero.

Definition dot6 (a b : Vector6) : R :=
  dot3 (head a) (head b) + dot3 (tail a) (tail b).

(** [x <= y] on doubles, as a boolean. *)
Definition Rleb (x y : R) : bool := if Rle_dec x y then true else false.

(** ** Enumerations *)

(** [collision::ContactType] *)
Module ContactType.
Inductive t := VERTEX_FACE | FACE_VERTEX | EDGE_EDGE | UNSUPPORTED.
End ContactType.

(** [neural::DofContactType] *)
Module DofContactType.
Inductive t :=
| NONE | FACE | VERTEX | EDGE_A | EDGE_B
| VERTEX_FACE_SELF_COLLISION | EDGE_EDGE_SELF_COLLISION | UNSUPPORTED.

Definition eqb (a b : t) : bool :=
  match a, b with
  | NONE, NONE | FACE, FACE | VERTEX, VERTEX | EDGE_A, EDGE_A
  | EDGE_B, EDGE_B
  | VERTEX_FACE_SELF_COLLISION, VERTEX_FACE_SELF_COLLISION
  | EDGE_EDGE_SELF_COLLISION, EDGE_EDGE_SELF_COLLISION
  | UNSUPPORTED, UNSUPPORTED => true
  | _, _ => false
  end.
End DofContactType.

Infix "==" := DofContactType.eqb (at level 70, no associativity).

(** [collision::Contact]: the fields the constraint reads. *)
Record Contact := mkContact {
  point : Vector3;
  normal : Vector3;
  type : ContactType.t;
  edgeAFixedPoint : Vector3;
  edgeADir : Vector3;
  edgeBFixedPoint : Vector3;
  edgeBDir : Vector3
}.

(** ** Interfaces the constraint consumes *)

(** The dart::math helpers (outside this source tree). *)
Class DartMath (Isometry3d : Type) := {
  AdT : Isometry3d -> Vector6 -> Vector6;
  ad : Vector6 -> Vector6 -> Vector6;
  gradientWrtTheta : Vector6 -> Vector3 -> R -> Vector3;
  gradientWrtThetaPureRotation : Vector3 -> Vector3 -> R -> Vector3;
  getContactPointGradient :
    Vector3 -> Vector3 -> Vector3 -> Vector3 ->
    Vector3 -> Vector3 -> Vector3 -> Vector3 -> Vector3
}.

(** The kinematics oracle: DegreeOfFreedom, BodyNode, Skeleton, and the two
    ancestor tests [DifferentiableContactConstraint::isParent] (the joint-tree
    walk, translated in [Module Tree] below). *)
Class Kinematics (Dof BodyNode Isometry3d Skeleton : Type) := {
  getIndexInJoint : Dof -> nat;
  (** [dof->getJoint()->getRelativeJacobian().col(i)] *)
  getRelativeJacobianCol : Dof -> nat -> Vector6;
  (** [dof->getChildBodyNode()->getWorldTransform()] *)
  getChildWorldTransform : Dof -> Isometry3d;
  isParentBody : Dof -> BodyNode -> bool;
  isParentDof : Dof -> Dof -> bool;
  getName : Skeleton -> string;
  getDofs : Skeleton -> list Dof
}.

(** [ContactConstraint::getTangentBasisMatrixODE(n).col(i)] and
    [ContactConstraint::getTangentBasisMatrixODEGradient(n, g).col(i)]. *)
Class TangentBasis := {
  getTangentBasisMatrixODE : Vector3 -> Z -> Vector3;
  getTangentBasisMatrixODEGradient : Vector3 -> Vector3 -> Z -> Vector3
}.

Section DifferentiableContactConstraint.

Context {Dof BodyNode Isometry3d Skeleton : Type}.
Context `{DartMath Isometry3d} `{Kinematics Dof BodyNode Isometry3d Skeleton}
        `{TangentBasis}.

(** [constraint::ConstraintBase]: a contact constraint (its Contact and the
    two bodies [getBodyNodeA()], [getBodyNodeB()]) or any other constraint. *)
Inductive ConstraintBase :=
| ContactConstraint (contact : Contact) (bodyA bodyB : BodyNode)
| OtherConstraint.

Definition isContactConstraint (c : ConstraintBase) : bool :=
  match c with ContactConstraint _ _ _ => true | OtherConstraint => false end.

(** The object's state: [mConstraint], [mIndex], [mSkeletons].  [mContact]
    and [mContactConstraint] are non-null exactly for contact constraints. *)
Record DCC := mkDCC {
  mConstraint : ConstraintBase;
  mIndex : Z;
  mSkeletons : list string
}.

(** [mContact]: [None] is the null pointer. *)
Definition mContact (self : DCC) : option Contact :=
  match mConstraint self with
  | ContactConstraint c _ _ => Some c
  | OtherConstraint => None
  end.

(** [mContactConstraint->getBodyNodeA()], [->getBodyNodeB()]; [None] is a
    dereference of the null [mContactConstraint]. *)
Definition getBodyNodes (self : DCC) : option (BodyNode * BodyNode) :=
  match mConstraint self with
  | ContactConstraint _ a b => Some (a, b)
  | OtherConstraint => None
  end.

Definition getContactWorldPosition (self : DCC) : Vector3 :=
  match mContact self with
  | None => Vector3_Zero
  | Some c => point c
  end.

Definition getContactWorldNormal (self : DCC) : Vector3 :=
  match mContact self with
  | None => Vector3_Zero
  | Some c => normal c
  end.

Definition getContactWorldForceDirection (self : DCC) : Vector3 :=
  match mContact self with
  | None => Vector3_Zero
  | Some c =>
      if Z.eqb (mIndex self) 0 then normal c
      else getTangentBasisMatrixODE (normal c) (mIndex self - 1)
  end.

Definition getWorldForce (self : DCC) : Vector6 :=
  mkVector6 (cross (getContactWorldPosition self)
                   (getContactWorldForceDirection self))
            (getContactWorldForceDirection self).

Definition getContactType (self : DCC) : ContactType.t :=
  match mContact self with
  | None => ContactType.UNSUPPORTED
  | Some c => type c
  end.

Definition getDofContactType (self : DCC) (dof : Dof)
  : option DofContactType.t :=
  match getBodyNodes self with
  | None => None
  | Some (bodyA, bodyB) =>
    let isParentA := isParentBody dof bodyA in
    let isParentB := isParentBody dof bodyB in
    Some
    (if isParentA && isParentB then
       match getContactType self with
       | ContactType.FACE_VERTEX
       | ContactType.VERTEX_FACE => DofContactType.VERTEX_FACE_SELF_COLLISION
       | ContactType.EDGE_EDGE => DofContactType.EDGE_EDGE_SELF_COLLISION
       | _ => DofContactType.UNSUPPORTED
       end
     else if negb isParentA && negb isParentB then DofContactType.NONE
     else if isParentA then
       match getContactType self with
       | ContactType.FACE_VERTEX => DofContactType.FACE
       | ContactType.VERTEX_FACE => DofContactType.VERTEX
       | ContactType.EDGE_EDGE => DofContactType.EDGE_B
       | _ => DofContactType.UNSUPPORTED
       end
     else if isParentB then
       match getContactType self with
       | ContactType.FACE_VERTEX => DofContactType.VERTEX
       | ContactType.VERTEX_FACE => DofContactType.FACE
       | ContactType.EDGE_EDGE => DofContactType.EDGE_A
       | _ => DofContactType.UNSUPPORTED
       end
     else DofContactType.NONE)
  end.

Definition getForceMultiple (self : DCC) (dof : Dof) : R :=
  match mConstraint self with
  | OtherConstraint => 1
  | ContactConstraint _ bodyA bodyB =>
    let isParentA := isParentBody dof bodyA in
    let isParentB := isParentBody dof bodyB in
    if isParentA && isParentB then 0
    else if isParentA then 1
    else if isParentB then -1
    else 0
  end.

Definition getWorldScrewAxis (dof : Dof) : Vector6 :=
  let jointIndex := getIndexInJoint dof in
  let relativeJacCol := getRelativeJacobianCol dof jointIndex in
  let transform := getChildWorldTransform dof in
  AdT transform relativeJacCol.

(** [getConstraintForces(skel)]: one entry per DOF of [skel], in order. *)
Definition getConstraintForces (self : DCC) (skel : Skeleton) : list R :=
  if negb (existsb (String.eqb (getName skel)) (mSkeletons self)) then
    repeat 0 (length (getDofs skel))
  else
    let worldForce := getWorldForce self in
    map (fun dof =>
           let multiple := getForceMultiple self dof in
           if Req_dec_T multiple 0 then 0
           else
             let worldTwist := getWorldScrewAxis dof in
             dot6 worldTwist worldForce * multiple)
        (getDofs skel).

Definition getContactPositionGradient (self : DCC) (dof : Dof)
  : option Vector3 :=
  let contactPos := getContactWorldPosition self in
  match getDofContactType self dof with
  | None => None
  | Some type =>
    if type == DofContactType.FACE then Some Vector3_Zero
    else if (type == DofContactType.VERTEX)
            || (type == DofContactType.VERTEX_FACE_SELF_COLLISION)
            || (type == DofContactType.EDGE_EDGE_SELF_COLLISION)
            || (type == DofContactType.EDGE_A)
            || (type == DofContactType.EDGE_B) then
      let jointIndex := getIndexInJoint dof in
      let worldTwist := AdT (getChildWorldTransform dof)
                            (getRelativeJacobianCol dof jointIndex) in
      if (type == DofContactType.VERTEX)
         || (type == DofContactType.VERTEX_FACE_SELF_COLLISION)
         || (type == DofContactType.EDGE_EDGE_SELF_COLLISION) then
        Some (gradientWrtTheta worldTwist contactPos 0)
      else if type == DofContactType.EDGE_A then
        match mContact self with
        | None => None
        | Some c =>
          let edgeAPosGradient :=
            gradientWrtTheta worldTwist (edgeAFixedPoint c) 0 in
          let edgeADirGradient :=
            gradientWrtThetaPureRotation (head worldTwist) (edgeADir c) 0 in
          Some (getContactPointGradient
                  (edgeAFixedPoint c) edgeAPosGradient
                  (edgeADir c) edgeADirGradient
                  (edgeBFixedPoint c) Vector3_Zero
                  (edgeBDir c) Vector3_Zero)
        end
      else if type == DofContactType.EDGE_B then
        match mContact self with
        | None => None
        | Some c =>
          let edgeBPosGradient :=
            gradientWrtTheta worldTwist (edgeBFixedPoint c) 0 in
          let edgeBDirGradient :=
            gradientWrtThetaPureRotation (head worldTwist) (edgeBDir c) 0 in
          Some (getContactPointGradient
                  (edgeAFixedPoint c) Vector3_Zero
                  (edgeADir c) Vector3_Zero
                  (edgeBFixedPoint c) edgeBPosGradient
                  (edgeBDir c) edgeBDirGradient)
        end
      else None (* falls off the end of a non-void function: unreachable *)
    else
      (* Default case *)
      Some Vector3_Zero
  end.

Definition getContactNormalGradient (self : DCC) (dof : Dof)
  : option Vector3 :=
  let normal := getContactWorldNormal self in
  match getDofContactType self dof with
  | None => None
  | Some type =>
    if type == DofContactType.VERTEX then Some Vector3_Zero
    else if (type == DofContactType.FACE)
            || (type == DofContactType.VERTEX_FACE_SELF_COLLISION)
            || (type == DofContactType.EDGE_A)
            || (type == DofContactType.EDGE_B)
            || (type == DofContactType.EDGE_EDGE_SELF_COLLISION) then
      let jointIndex := getIndexInJoint dof in
      let worldTwist := AdT (getChildWorldTransform dof)
                            (getRelativeJacobianCol dof jointIndex) in
      if (type == DofContactType.FACE)
         || (type == DofContactType.VERTEX_FACE_SELF_COLLISION)
         || (type == DofContactType.EDGE_EDGE_SELF_COLLISION) then
        Some (gradientWrtThetaPureRotation (head worldTwist) normal 0)
      else if type == DofContactType.EDGE_A then
        match mContact self with
        | None => None
        | Some c =>
          let edgeADirGradient :=
            gradientWrtThetaPureRotation (head worldTwist) (edgeADir c) 0 in
          Some (cross edgeADirGradient (edgeBDir c))
        end
      else if type == DofContactType.EDGE_B then
        match mContact self with
        | None => None
        | Some c =>
          let edgeBDirGradient :=
            gradientWrtThetaPureRotation (head worldTwist) (edgeBDir c) 0 in
          Some (cross (edgeADir c) edgeBDirGradient)
        end
      else None (* falls off the end of a non-void function: unreachable *)
    else
      (* Default case *)
      Some Vector3_Zero
  end.

Definition getContactForceGradient (self : DCC) (dof : Dof)
  : option Vector3 :=
  match getDofContactType self dof with
  | None => None
  | Some type =>
    if type == DofContactType.VERTEX then Some Vector3_Zero
    else if (type == DofContactType.FACE)
            || (type == DofContactType.VERTEX_FACE_SELF_COLLISION)
            || (type == DofContactType.EDGE_A)
            || (type == DofContactType.EDGE_B)
            || (type == DofContactType.EDGE_EDGE_SELF_COLLISION) then
      let contactNormal := getContactWorldNormal self in
      match getContactNormalGradient self dof with
      | None => None
      | Some normalGradient =>
        if Z.eqb (mIndex self) 0
           || Rleb (squaredNorm normalGradient) (/ 10 ^ 12) then
          Some normalGradient
        else
          Some (getTangentBasisMatrixODEGradient
                  contactNormal normalGradient (mIndex self - 1))
      end
    else
      (* Default case *)
      Some Vector3_Zero
  end.

Definition getContactWorldForceGradient (self : DCC) (dof : Dof)
  : option Vector6 :=
  let position := getContactWorldPosition self in
  let force := getContactWorldForceDirection self in
  match getContactForceGradient self dof with
  | None => None
  | Some forceGradient =>
    match getContactPositionGradient self dof with
    | None => None
    | Some positionGradient =>
      Some (mkVector6 (Vector3_add (cross position forceGradient)
                                   (cross positionGradient force))
                      forceGradient)
    end
  end.

Definition getScrewAxisGradient (screwDof rotateDof : Dof) : Vector6 :=
  if negb (isParentDof rotateDof screwDof) then Vector6_Zero
  else
    let axisWorldTwist := getWorldScrewAxis screwDof in
    let rotateWorldTwist := getWorldScrewAxis rotateDof in
    ad rotateWorldTwist axisWorldTwist.

Definition getConstraintForceDerivative (self : DCC) (dof wrt : Dof)
  : option R :=
  let multiple := getForceMultiple self dof in
  let worldForce := getWorldForce self in
  match getContactWorldForceGradient self wrt with
  | None => None
  | Some gradientOfWorldForce =>
    let gradientOfWorldTwist := getScrewAxisGradient dof wrt in
    let worldTwist := getWorldScrewAxis dof in
    Some ((dot6 worldTwist gradientOfWorldForce
           + dot6 gradientOfWorldTwist worldForce) * multiple)
  end.

End DifferentiableContactConstraint.

(** ** The rest of the constraint: edge data, Jacobians, world-level forces *)

(** [neural::EdgeData] *)
Module EdgeData.
Record t := mk {
  edgeAPos : Vector3;
  edgeADir : Vector3;
  edgeBPos : Vector3;
  edgeBDir : Vector3
}.

Definition Zero : t := mk Vector3_Zero Vector3_Zero Vector3_Zero Vector3_Zero.
End EdgeData.

(** Evaluate [f] on each element in order; [None] (a crash) as soon as one
    evaluation is [None]. *)
Fixpoint mapOpt {A B : Type} (f : A -> option B) (l : list A)
  : option (list B) :=
  match l with
  | [] => Some []
  | x :: rest =>
    match f x with
    | None => None
    | Some y =>
      match mapOpt f rest with
      | None => None
      | Some ys => Some (y :: ys)
      end
    end
  end.

(** [Eigen::VectorXd::segment(cursor, n) = s] on a vector stored as a list. *)
Definition segmentAssign (v : list R) (cursor n : nat) (s : list R) : list R :=
  firstn cursor v ++ s ++ skipn (cursor + n) v.

(** Matrices as lists of rows; [hconcat nrows blocks] places the blocks side
    by side ([result.block(0, cursor, rows, cols) = block]). *)
Definition hconcat (nrows : nat) (blocks : list (list (list R)))
  : list (list R) :=
  map (fun r => flat_map (fun b => nth r b []) blocks) (seq 0 nrows).

Section DifferentiableContactConstraintJacobians.

Context {Dof BodyNode Isometry3d Skeleton : Type}.
Context `{DartMath Isometry3d} `{Kinematics Dof BodyNode Isometry3d Skeleton}
        `{TangentBasis}.

Definition getEdgeGradient (self : DCC (BodyNode := BodyNode)) (dof : Dof)
  : option EdgeData.t :=
  let jointIndex := getIndexInJoint dof in
  let worldTwist := AdT (getChildWorldTransform dof)
                        (getRelativeJacobianCol dof jointIndex) in
  match getDofContactType self dof with
  | None => None
  | Some type =>
    if type == DofContactType.EDGE_A then
      match mContact self with
      | None => None
      | Some c =>
        Some (EdgeData.mk
                (gradientWrtTheta worldTwist (edgeAFixedPoint c) 0)
                (gradientWrtThetaPureRotation (head worldTwist) (edgeADir c) 0)
                Vector3_Zero Vector3_Zero)
      end
    else if type == DofContactType.EDGE_B then
      match mContact self with
      | None => None
      | Some c =>
        Some (EdgeData.mk
                Vector3_Zero Vector3_Zero
                (gradientWrtTheta worldTwist (edgeBFixedPoint c) 0)
                (gradientWrtThetaPureRotation (head worldTwist) (edgeBDir c) 0))
      end
    else if type == DofContactType.EDGE_EDGE_SELF_COLLISION then
      match mContact self with
      | None => None
      | Some c =>
        Some (EdgeData.mk
                (gradientWrtTheta worldTwist (edgeAFixedPoint c) 0)
                (gradientWrtThetaPureRotation (head worldTwist) (edgeADir c) 0)
                (gradientWrtTheta worldTwist (edgeBFixedPoint c) 0)
                (gradientWrtThetaPureRotation (head worldTwist) (edgeBDir c) 0))
      end
    else Some EdgeData.Zero
  end.

Definition getEdges (self : DCC (BodyNode := BodyNode)) : EdgeData.t :=
  match getContactType self, mContact self with
  | ContactType.EDGE_EDGE, Some c =>
    EdgeData.mk (edgeAFixedPoint c) (edgeADir c)
                (edgeBFixedPoint c) (edgeBDir c)
  | _, _ => EdgeData.Zero
  end.

(** [getContactPositionJacobian(world)] and [(skel)]: one column per DOF of
    [world->getDofs()] or [skel->getDofs()]. *)
Definition getContactPositionJacobian (self : DCC (BodyNode := BodyNode))
    (dofs : list Dof) : option (list Vector3) :=
  mapOpt (getContactPositionGradient self) dofs.

(** [getContactForceDirectionJacobian(world)] and [(skel)]. *)
Definition getContactForceDirectionJacobian
    (self : DCC (BodyNode := BodyNode)) (dofs : list Dof)
  : option (list Vector3) :=
  mapOpt (getContactForceGradient self) dofs.

(** [getContactForceJacobian(world)] and [(skel)]. *)
Definition getContactForceJacobian (self : DCC (BodyNode := BodyNode))
    (dofs : list Dof) : option (list Vector6) :=
  let pos := getContactWorldPosition self in
  let dir := getContactWorldForceDirection self in
  match getContactPositionJacobian self dofs with
  | None => None
  | Some posJac =>
    match getContactForceDirectionJacobian self dofs with
    | None => None
    | Some dirJac =>
      Some (map (fun '(p, d) =>
                   mkVector6 (Vector3_add (cross pos d) (cross p dir)) d)
                (combine posJac dirJac))
    end
  end.

Definition getConstraintForce (self : DCC (BodyNode := BodyNode)) (dof : Dof)
  : R :=
  let multiple := getForceMultiple self dof in
  let worldForce := getWorldForce self in
  let worldTwist := getWorldScrewAxis dof in
  dot6 worldTwist worldForce * multiple.

(** The double loop shared by the [getConstraintForcesJacobian] overloads:
    rows over [rowDofs], columns over [wrtDofs]. *)
Definition constraintForcesJacobianOf (self : DCC (BodyNode := BodyNode))
    (rowDofs wrtDofs : list Dof) : option (list (list R)) :=
  match getContactForceJacobian self wrtDofs with
  | None => None
  | Some forceJac =>
    let force := getWorldForce self in
    Some (map (fun rowDof =>
                 let axis := getWorldScrewAxis rowDof in
                 map (fun '(wrtDof, forceGradient) =>
                        let screwAxisGradient := getScrewAxisGradient rowDof wrtDof in
                        let multiple := getForceMultiple self rowDof in
                        multiple * (dot6 screwAxisGradient force
                                    + dot6 axis forceGradient))
                     (combine wrtDofs forceJac))
              rowDofs)
  end.

(** [getConstraintForcesJacobian(skel, wrt)] *)
Definition getConstraintForcesJacobianSkelWrt
    (self : DCC (BodyNode := BodyNode)) (skel wrt : Skeleton)
  : option (list (list R)) :=
  constraintForcesJacobianOf self (getDofs skel) (getDofs wrt).

(** [getConstraintForcesJacobian(skels, wrt)] *)
Definition getConstraintForcesJacobianSkelsWrt
    (self : DCC (BodyNode := BodyNode)) (skels : list Skeleton) (wrt : Skeleton)
  : option (list (list R)) :=
  constraintForcesJacobianOf self (flat_map getDofs skels) (getDofs wrt).

(** [getConstraintForcesJacobian(skels)]: the blocks for each [wrt] in
    [skels], side by side. *)
Definition getConstraintForcesJacobianSkels
    (self : DCC (BodyNode := BodyNode)) (skels : list Skeleton)
  : option (list (list R)) :=
  let dofs := length (flat_map getDofs skels) in
  match mapOpt (getConstraintForcesJacobianSkelsWrt self skels) skels with
  | None => None
  | Some blocks => Some (hconcat dofs blocks)
  end.

(** Modelled from the spec ("The world's flat coordinate vector q
    concatenates each skeleton's DOFs in registration order"):
    [simulation::World], its skeletons and [getDofs()]. *)
Record World := mkWorld { worldSkeletons : list Skeleton }.

Definition worldDofs (world : World) : list Dof :=
  flat_map getDofs (worldSkeletons world).

(** [getConstraintForcesJacobian(world)] *)
Definition getConstraintForcesJacobianWorld
    (self : DCC (BodyNode := BodyNode)) (world : World)
  : option (list (list R)) :=
  constraintForcesJacobianOf self (worldDofs world) (worldDofs world).

(** The loop of [getConstraintForces(world)] from skeleton cursor on. *)
Fixpoint writeSkeletonForces (self : DCC (BodyNode := BodyNode))
    (taus : list R) (cursor : nat) (skels : list Skeleton) : list R :=
  match skels with
  | [] => taus
  | skel :: rest =>
    let dofs := length (getDofs skel) in
    writeSkeletonForces self
      (segmentAssign taus cursor dofs (getConstraintForces self skel))
      (cursor + dofs) rest
  end.

(** [getConstraintForces(world)]; [taus0] is the content of the
    uninitialised [Eigen::VectorXd(world->getNumDofs())]. *)
Definition getConstraintForcesWorld (self : DCC (BodyNode := BodyNode))
    (world : World) (taus0 : list R) : list R :=
  writeSkeletonForces self taus0 0 (worldSkeletons world).

End DifferentiableContactConstraintJacobians.

(** ** The classification policy as the spec's truth table (section 4.B),
    compared with [getDofContactType] below. *)
Module SpecTable.

Definition dofContactType (ancestorA ancestorB : bool) (ty : ContactType.t)
  : DofContactType.t :=
  match ancestorA, ancestorB, ty with
  | _, _, ContactType.UNSUPPORTED => DofContactType.UNSUPPORTED
  | false, false, _ => DofContactType.NONE
  | true, true, ContactType.EDGE_EDGE => DofContactType.EDGE_EDGE_SELF_COLLISION
  | true, true, _ => DofContactType.VERTEX_FACE_SELF_COLLISION
  | true, false, ContactType.VERTEX_FACE => DofContactType.VERTEX
  | true, false, ContactType.FACE_VERTEX => DofContactType.FACE
  | true, false, ContactType.EDGE_EDGE => DofContactType.EDGE_B
  | false, true, ContactType.VERTEX_FACE => DofContactType.FACE
  | false, true, ContactType.FACE_VERTEX => DofContactType.VERTEX
  | false, true, ContactType.EDGE_EDGE => DofContactType.EDGE_A
  end.

End SpecTable.

(** ** DantzigBoxedLcpSolver::solve *)

(** A C++ call either returns a value or throws. *)
Inductive Result (E A : Type) :=
| Returned (a : A)
| Thrown (e : E).
Arguments Returned {E A} a.
Arguments Thrown {E A} e.

Section DantzigBoxedLcpSolver.

Context {Exception : Type}.

(** The external ODE routine [dSolveLCP(n, A, x, b, w, nub, lo, hi, findex,
    earlyTermination)]; the pointer [w] is [None] for [nullptr]. *)
Variable dSolveLCP :
  Z -> list R -> list R -> list R -> option (list R) -> Z ->
  list R -> list R -> list Z -> bool -> Result Exception bool.

Definition solve (n : Z) (A x b : list R) (nub : Z) (lo hi : list R)
    (findex : list Z) (earlyTermination : bool) : Result Exception bool :=
  match dSolveLCP n A x b None 0%Z lo hi findex earlyTermination with
  | Returned r => Returned r
  | Thrown _ => Returned false (* catch (...) *)
  end.

End DantzigBoxedLcpSolver.

(** ** The joint tree and [DifferentiableContactConstraint::isParent] *)

Module Tree.

(** A joint as the ancestor walk sees it; [parentJoint] is
    [getParentBodyNode()->getParentJoint()], [None] when either pointer is
    null.  Joints are named by [jointId] (pointer identity). *)
Record Joint := mkJoint {
  jointId : nat;
  skeletonName : string;
  treeIndex : nat;
  indexInTree : nat;
  parentJoint : option nat
}.

Record Dof := mkDof { dofJoint : nat; dofIndexInJoint : nat }.

Record BodyNode := mkBodyNode { bodyParentJoint : nat }.

Section Walk.

Variable joints : list Joint.

Definition lookupJoint (id : nat) : option Joint :=
  find (fun j => Nat.eqb (jointId j) id) joints.

(** The [while (true)] loop: climb from [cur] towards the root until
    [target] is met.  [fuel] bounds the climb; [length joints + 1] steps
    cover every chain of a tree. *)
Fixpoint walk (fuel : nat) (target : nat) (cur : Joint) : bool :=
  match fuel with
  | O => false
  | S fuel' =>
    if Nat.eqb (jointId cur) target then true
    else match parentJoint cur with
         | None => false
         | Some p =>
           match lookupJoint p with
           | None => false
           | Some pj => walk fuel' target pj
           end
         end
  end.

Definition sameTreeAndBefore (a b : Joint) : bool :=
  String.eqb (skeletonName a) (skeletonName b)
  && Nat.eqb (treeIndex a) (treeIndex b)
  && Nat.leb (indexInTree a) (indexInTree b).

(** [climbs target n j]: following [getParentBodyNode()->getParentJoint()]
    from [j], the first joint named [target] is met after [n] steps. *)
Inductive climbs (target : nat) : nat -> Joint -> Prop :=
| climbs_here (j : Joint) :
    jointId j = target -> climbs target 0 j
| climbs_up (n : nat) (j : Joint) (p : nat) (pj : Joint) :
    jointId j <> target -> parentJoint j = Some p -> lookupJoint p = Some pj ->
    climbs target n pj -> climbs target (S n) j.

(** [isParent(const DegreeOfFreedom* dof, const BodyNode* node)] *)
Definition isParentBody (dof : Dof) (node : BodyNode) : bool :=
  match lookupJoint (dofJoint dof), lookupJoint (bodyParentJoint node) with
  | Some dofJ, Some nodeParentJ =>
    if negb (sameTreeAndBefore dofJ nodeParentJ) then false
    else walk (S (length joints)) (jointId dofJ) nodeParentJ
  | _, _ => false
  end.

(** [isParent(const DegreeOfFreedom* parent, const DegreeOfFreedom* child)] *)
Definition isParentDof (parent child : Dof) : bool :=
  if Nat.eqb (dofJoint parent) (dofJoint child) then
    negb (Nat.eqb (dofIndexInJoint parent) (dofIndexInJoint child))
  else
    match lookupJoint (dofJoint parent), lookupJoint (dofJoint child) with
    | Some parentJ, Some childJ =>
      if negb (sameTreeAndBefore parentJ childJ) then false
      else walk (S (length joints)) (jointId parentJ) childJ
    | _, _ => false
    end.

End Walk.

End Tree.

(** ** Models of the dart::math helpers and of the ODE tangent basis

    These helpers are code of the repository that is not in this source
    tree.  They are only used to build concrete worlds below; the theorems
    about the constraint hold for every [DartMath] and [TangentBasis]. *)

Module MathModel.

(** Dual numbers [re + du * eps], [eps * eps = 0]: derivatives of the
    closed-form geometry. *)
Record Dual := mkDual { re : R; du : R }.

Definition Dadd (a b : Dual) := mkDual (re a + re b) (du a + du b).
Definition Dsub (a b : Dual) := mkDual (re a - re b) (du a - du b).
Definition Dmul (a b : Dual) :=
  mkDual (re a * re b) (du a * re b + re a * du b).
Definition Ddiv (a b : Dual) :=
  mkDual (re a / re b) ((du a * re b - re a * du b) / (re b * re b)).
Definition Dsqrt (a : Dual) :=
  mkDual (sqrt (re a)) (du a / (2 * sqrt (re a))).

Record DVector3 := mkDV3 { dx : Dual; dy : Dual; dz : Dual }.

Definition lift (p dp : Vector3) : DVector3 :=
  mkDV3 (mkDual (v3x p) (v3x dp)) (mkDual (v3y p) (v3y dp))
        (mkDual (v3z p) (v3z dp)).
Definition constant (p : Vector3) : DVector3 := lift p Vector3_Zero.
Definition rePart (v : DVector3) : Vector3 :=
  mkVector3 (re (dx v)) (re (dy v)) (re (dz v)).
Definition duPart (v : DVector3) : Vector3 :=
  mkVector3 (du (dx v)) (du (dy v)) (du (dz v)).

Definition DVadd (a b : DVector3) :=
  mkDV3 (Dadd (dx a) (dx b)) (Dadd (dy a) (dy b)) (Dadd (dz a) (dz b)).
Definition DVsub (a b : DVector3) :=
  mkDV3 (Dsub (dx a) (dx b)) (Dsub (dy a) (dy b)) (Dsub (dz a) (dz b)).
Definition DVscale (s : Dual) (a : DVector3) :=
  mkDV3 (Dmul s (dx a)) (Dmul s (dy a)) (Dmul s (dz a)).
Definition DVdot (a b : DVector3) :=
  Dadd (Dadd (Dmul (dx a) (dx b)) (Dmul (dy a) (dy b))) (Dmul (dz a) (dz b)).
Definition DVcross (a b : DVector3) :=
  mkDV3 (Dsub (Dmul (dy a) (dz b)) (Dmul (dz a) (dy b)))
        (Dsub (Dmul (dz a) (dx b)) (Dmul (dx a) (dz b)))
        (Dsub (Dmul (dx a) (dy b)) (Dmul (dy a) (dx b))).

(** Modelled from the spec: [math::getContactPoint], "the closed-form
    skew-line intersection": the midpoint of the two closest points of the
    lines [pA + s dA] and [pB + t dB]. *)
Definition getContactPointD (pA dA pB dB : DVector3) : DVector3 :=
  let n := DVcross dA dB in
  let nA := DVcross dA n in
  let nB := DVcross dB n in
  let cA := DVadd pA (DVscale (Ddiv (DVdot (DVsub pB pA) nB) (DVdot dA nB)) dA) in
  let cB := DVadd pB (DVscale (Ddiv (DVdot (DVsub pA pB) nA) (DVdot dB nA)) dB) in
  DVscale (mkDual (/ 2) 0) (DVadd cA cB).

(** Modelled from the spec: [math::getContactPointGradient], which
    "differentiates the closed-form skew-line intersection". *)
Definition getContactPointGradient
    (pA dpA dA ddA pB dpB dB ddB : Vector3) : Vector3 :=
  duPart (getContactPointD (lift pA dpA) (lift dA ddA)
                           (lift pB dpB) (lift dB ddB)).

(** A rigid transform: rotation rows and translation. *)
Record Isometry3d := mkIsometry3d {
  row0 : Vector3; row1 : Vector3; row2 : Vector3; translation : Vector3
}.

Definition Identity : Isometry3d :=
  mkIsometry3d (mkVector3 1 0 0) (mkVector3 0 1 0) (mkVector3 0 0 1)
               Vector3_Zero.

Definition rotate (T : Isometry3d) (v : Vector3) : Vector3 :=
  mkVector3 (dot3 (row0 T) v) (dot3 (row1 T) v) (dot3 (row2 T) v).

(** Modelled from the spec ("Screw axis (world)": [angular; linear]):
    [math::AdT], the adjoint action of a transform on a twist. *)
Definition AdT (T : Isometry3d) (V : Vector6) : Vector6 :=
  let w := rotate T (head V) in
  mkVector6 w (Vector3_add (cross (translation T) w) (rotate T (tail V))).

(** Modelled from the spec ("the Lie bracket / little-ad"): [math::ad]. *)
Definition ad (V1 V2 : Vector6) : Vector6 :=
  mkVector6 (cross (head V1) (head V2))
            (Vector3_add (cross (head V1) (tail V2))
                         (cross (tail V1) (head V2))).

(** Modelled from the spec: [math::gradientWrtTheta(twist, p, 0)], "the
    instantaneous linear velocity of the world point under unit rate".  The
    constraint only calls it at [theta = 0]. *)
Definition gradientWrtTheta (twist : Vector6) (p : Vector3) (theta : R)
  : Vector3 :=
  Vector3_add (cross (head twist) p) (tail twist).

(** Modelled from the spec ("rotA x edgeADir"):
    [math::gradientWrtThetaPureRotation(w, p, 0)]. *)
Definition gradientWrtThetaPureRotation (w p : Vector3) (theta : R)
  : Vector3 :=
  cross w p.

#[export] Instance dartMath : DartMath Isometry3d := {
  AdT := AdT;
  ad := ad;
  gradientWrtTheta := gradientWrtTheta;
  gradientWrtThetaPureRotation := gradientWrtThetaPureRotation;
  getContactPointGradient := getContactPointGradient
}.

(** Modelled from the spec ("the fixed two-vector tangent frame"):
    [ContactConstraint::getTangentBasisMatrixODE] with two friction
    directions: the unit tangent [z x n] (or [x x n] when that is too short)
    and its quarter turn about [n]. *)
Definition tangentBasisD (n : DVector3) (i : Z) : DVector3 :=
  let unitZ := constant (mkVector3 0 0 1) in
  let unitX := constant (mkVector3 1 0 0) in
  let t0 := DVcross unitZ n in
  let t := if Rlt_dec (re (DVdot t0 t0)) (/ 10 ^ 12) then DVcross unitX n
           else t0 in
  let tHat := DVscale (Ddiv (mkDual 1 0) (Dsqrt (DVdot t t))) t in
  if Z.eqb i 0 then tHat else DVcross n tHat.

#[export] Instance tangentBasis : TangentBasis := {
  getTangentBasisMatrixODE := fun n i => rePart (tangentBasisD (constant n) i);
  getTangentBasisMatrixODEGradient :=
    fun n g i => duPart (tangentBasisD (lift n g) i)
}.

End MathModel.

(** ** A concrete world

    Skeleton "arm": a revolute root joint 0 about z carrying body 0, and a
    revolute joint 1 about z carrying body 1 (the hand) at x = 1.  Skeleton
    "ground": a prismatic joint 2 along y carrying the ground body 2. *)

Module Example.
Import Tree MathModel.
Local Open Scope nat_scope.

Definition joints : list Joint :=
  [ mkJoint 0 "arm" 0 0 None;
    mkJoint 1 "arm" 0 1 (Some 0);
    mkJoint 2 "ground" 0 0 None ]%nat.

Definition shoulder : Tree.Dof := mkDof 0 0.
Definition elbow : Tree.Dof := mkDof 1 0.
Definition slider : Tree.Dof := mkDof 2 0.

Definition upperArm : Tree.BodyNode := mkBodyNode 0.
Definition hand : Tree.BodyNode := mkBodyNode 1.
Definition ground : Tree.BodyNode := mkBodyNode 2.

Record Skeleton := mkSkeleton { skelName : string; skelDofs : list Tree.Dof }.

Definition arm : Skeleton := mkSkeleton "arm" [shoulder; elbow].
Definition groundSkel : Skeleton := mkSkeleton "ground" [slider].

Local Open Scope R_scope.

Definition unitZ := mkVector3 0 0 1.

(** Local screw axes: revolute about z for joints 0 and 1, prismatic along
    y for joint 2. *)
Definition relativeJacobianCol (dof : Tree.Dof) (i : nat) : Vector6 :=
  match dofJoint dof with
  | 2%nat => mkVector6 Vector3_Zero (mkVector3 0 1 0)
  | _ => mkVector6 unitZ Vector3_Zero
  end.

Definition childWorldTransform (dof : Tree.Dof) : MathModel.Isometry3d :=
  match dofJoint dof with
  | 1%nat => mkIsometry3d (mkVector3 1 0 0) (mkVector3 0 1 0)
                          (mkVector3 0 0 1) (mkVector3 1 0 0)
  | _ => Identity
  end.

#[export] Instance kinematics :
  Kinematics Tree.Dof Tree.BodyNode MathModel.Isometry3d Skeleton := {
  getIndexInJoint := dofIndexInJoint;
  getRelativeJacobianCol := relativeJacobianCol;
  getChildWorldTransform := childWorldTransform;
  isParentBody := Tree.isParentBody joints;
  isParentDof := Tree.isParentDof joints;
  getName := skelName;
  getDofs := skelDofs
}.

(** A contact record at [p] with normal [n] and no edges. *)
Definition pointContact (ty : ContactType.t) (p n : Vector3) : Contact :=
  mkContact p n ty Vector3_Zero Vector3_Zero Vector3_Zero Vector3_Zero.

(** The hand (A) touching the ground (B), normal [+z]. *)
Definition handOnGround (ty : ContactType.t) (index : Z)
  : DCC (BodyNode := Tree.BodyNode) :=
  mkDCC (ContactConstraint (pointContact ty (mkVector3 2 0 0) unitZ)
                           hand ground)
        index ["arm"; "ground"]%string.

(** The upper arm (A) touching the ground (B). *)
Definition upperArmOnGround (ty : ContactType.t) (index : Z)
  : DCC (BodyNode := Tree.BodyNode) :=
  mkDCC (ContactConstraint (pointContact ty (mkVector3 0 0 0) unitZ)
                           upperArm ground)
        index ["arm"; "ground"]%string.

(** A joint-limit style constraint on the arm. *)
Definition jointLimit : DCC (BodyNode := Tree.BodyNode) :=
  mkDCC OtherConstraint 0 ["arm"]%string.

(** A unit normal tilted from [+z] by a tiny angle:
    [(0, 2k/(k^2+1), (k^2-1)/(k^2+1))] with [k = 10^7]. *)
Definition tiltK : R := 10 ^ 7.

Definition tiltedNormal : Vector3 :=
  mkVector3 0 (2 * tiltK / (tiltK ^ 2 + 1)) ((tiltK ^ 2 - 1) / (tiltK ^ 2 + 1)).

(** The hand (A) owning the face of a face-vertex contact against the
    ground, with the tilted normal; the row of the first tangent direction. *)
Definition tiltedFace : DCC (BodyNode := Tree.BodyNode) :=
  mkDCC (ContactConstraint
           (pointContact ContactType.FACE_VERTEX (mkVector3 2 0 0) tiltedNormal)
           hand ground)
        1 ["arm"; "ground"]%string.

End Example.

(** * Properties of the contact constraint *)

Section Properties.

Context {Dof BodyNode Isometry3d Skeleton : Type}.
Context `{DartMath Isometry3d} `{Kinematics Dof BodyNode Isometry3d Skeleton}
        `{TangentBasis}.

Ltac split_parents dof bodyA bodyB :=
  destruct (isParentBody dof bodyA), (isParentBody dof bodyB).

(** For a contact constraint the classification never dereferences null. *)
Lemma getDofContactType_contact (c : Contact) (bodyA bodyB : BodyNode)
    (index : Z) (skels : list string) (dof : Dof) :
  exists t, getDofContactType
              (mkDCC (ContactConstraint c bodyA bodyB) index skels) dof
            = Some t.
Proof. eexists; reflexivity. Qed.

(** C1: for a vertex-face, face-vertex or edge-edge contact between bodies
    A and B, [getDofContactType] follows the spec's truth table: NONE for an
    ancestor of neither body, the self-collision types for an ancestor of
    both, VERTEX / FACE / EDGE_B for an ancestor of A only and FACE / VERTEX /
    EDGE_A for an ancestor of B only. *)
Theorem getDofContactType_truth_table (c : Contact) (bodyA bodyB : BodyNode)
    (index : Z) (skels : list string) (dof : Dof)
    (Htype : type c = ContactType.VERTEX_FACE
             \/ type c = ContactType.FACE_VERTEX
             \/ type c = ContactType.EDGE_EDGE) :
  getDofContactType (mkDCC (ContactConstraint c bodyA bodyB) index skels) dof
  = Some (SpecTable.dofContactType (isParentBody dof bodyA)
                                   (isParentBody dof bodyB) (type c)).
Proof.
  unfold getDofContactType, getContactType; simpl.
  destruct Htype as [Ht | [Ht | Ht]]; rewrite Ht;
    split_parents dof bodyA bodyB; reflexivity.
Qed.

(** C8 (as amended): for an UNSUPPORTED contact, [getDofContactType] is
    UNSUPPORTED for a DOF that is an ancestor of body A or of body B (or
    both), and NONE for a DOF that is an ancestor of neither. *)
Theorem getDofContactType_unsupported (c : Contact) (bodyA bodyB : BodyNode)
    (index : Z) (skels : list string) (dof : Dof)
    (Htype : type c = ContactType.UNSUPPORTED) :
  getDofContactType (mkDCC (ContactConstraint c bodyA bodyB) index skels) dof
  = Some (if isParentBody dof bodyA || isParentBody dof bodyB
          then DofContactType.UNSUPPORTED else DofContactType.NONE).
Proof.
  unfold getDofContactType, getContactType; simpl; rewrite Htype.
  split_parents dof bodyA bodyB; reflexivity.
Qed.

(** C7: for a contact constraint between A and B, [getForceMultiple d] is
    nonzero exactly when d is an ancestor of A xor of B; it is 1 for an
    ancestor of A only, -1 for an ancestor of B only, and 0 for an ancestor
    of both or of neither. *)
Theorem getForceMultiple_xor (c : Contact) (bodyA bodyB : BodyNode)
    (index : Z) (skels : list string) (dof : Dof) :
  let self := mkDCC (ContactConstraint c bodyA bodyB) index skels in
  let ancA := isParentBody dof bodyA in
  let ancB := isParentBody dof bodyB in
  (getForceMultiple self dof <> 0 <-> xorb ancA ancB = true)
  /\ (ancA = true -> ancB = false -> getForceMultiple self dof = 1)
  /\ (ancA = false -> ancB = true -> getForceMultiple self dof = -1)
  /\ (ancA = ancB -> getForceMultiple self dof = 0).
Proof.
  cbv zeta; unfold getForceMultiple; simpl.
  split_parents dof bodyA bodyB; simpl;
    repeat split; intros; try discriminate; try reflexivity; try lra.
Qed.

(** C2: [getContactPositionGradient d] is zero for FACE, NONE and
    UNSUPPORTED; [gradientWrtTheta(worldScrewAxis(d), point)] for VERTEX and
    the two self-collision types; and for EDGE_A (EDGE_B) the contact-point
    gradient of the moving edge A (B) with zero gradients for the other
    edge. *)
Theorem getContactPositionGradient_cases (c : Contact) (bodyA bodyB : BodyNode)
    (index : Z) (skels : list string) (dof : Dof) :
  let self := mkDCC (ContactConstraint c bodyA bodyB) index skels in
  let twist := getWorldScrewAxis dof in
  match getDofContactType self dof with
  | Some (DofContactType.FACE | DofContactType.NONE
         | DofContactType.UNSUPPORTED) =>
      getContactPositionGradient self dof = Some Vector3_Zero
  | Some (DofContactType.VERTEX | DofContactType.VERTEX_FACE_SELF_COLLISION
         | DofContactType.EDGE_EDGE_SELF_COLLISION) =>
      getContactPositionGradient self dof
      = Some (gradientWrtTheta twist (point c) 0)
  | Some DofContactType.EDGE_A =>
      getContactPositionGradient self dof
      = Some (getContactPointGradient
                (edgeAFixedPoint c) (gradientWrtTheta twist (edgeAFixedPoint c) 0)
                (edgeADir c)
                (gradientWrtThetaPureRotation (head twist) (edgeADir c) 0)
                (edgeBFixedPoint c) Vector3_Zero (edgeBDir c) Vector3_Zero)
  | Some DofContactType.EDGE_B =>
      getContactPositionGradient self dof
      = Some (getContactPointGradient
                (edgeAFixedPoint c) Vector3_Zero (edgeADir c) Vector3_Zero
                (edgeBFixedPoint c) (gradientWrtTheta twist (edgeBFixedPoint c) 0)
                (edgeBDir c)
                (gradientWrtThetaPureRotation (head twist) (edgeBDir c) 0))
  | None => False
  end.
Proof.
  cbv zeta; unfold getContactPositionGradient, getDofContactType,
    getContactType, getWorldScrewAxis; simpl.
  split_parents dof bodyA bodyB; destruct (type c); reflexivity.
Qed.

(** C3: [getContactNormalGradient d] is zero for VERTEX, NONE and
    UNSUPPORTED; the pure-rotation gradient of the normal under the angular
    part of the world screw axis for FACE and the self-collision types;
    [(rotA x edgeADir) x edgeBDir] for EDGE_A and [edgeADir x (rotB x
    edgeBDir)] for EDGE_B, the rotated factor being the pure-rotation
    gradient of that edge's direction. *)
Theorem getContactNormalGradient_cases (c : Contact) (bodyA bodyB : BodyNode)
    (index : Z) (skels : list string) (dof : Dof) :
  let self := mkDCC (ContactConstraint c bodyA bodyB) index skels in
  let rot := head (getWorldScrewAxis dof) in
  match getDofContactType self dof with
  | Some (DofContactType.VERTEX | DofContactType.NONE
         | DofContactType.UNSUPPORTED) =>
      getContactNormalGradient self dof = Some Vector3_Zero
  | Some (DofContactType.FACE | DofContactType.VERTEX_FACE_SELF_COLLISION
         | DofContactType.EDGE_EDGE_SELF_COLLISION) =>
      getContactNormalGradient self dof
      = Some (gradientWrtThetaPureRotation rot (normal c) 0)
  | Some DofContactType.EDGE_A =>
      getContactNormalGradient self dof
      = Some (cross (gradientWrtThetaPureRotation rot (edgeADir c) 0)
                    (edgeBDir c))
  | Some DofContactType.EDGE_B =>
      getContactNormalGradient self dof
      = Some (cross (edgeADir c)
                    (gradientWrtThetaPureRotation rot (edgeBDir c) 0))
  | None => False
  end.
Proof.
  cbv zeta; unfold getContactNormalGradient, getDofContactType,
    getContactType, getWorldScrewAxis; simpl.
  split_parents dof bodyA bodyB; destruct (type c); reflexivity.
Qed.

(** The last branch of [getContactForceGradient]. *)
Lemma force_branch (index : Z) (g n : Vector3) :
  ((index = 0%Z \/ squaredNorm g <= / 10 ^ 12) ->
   (if (index =? 0)%Z || Rleb (squaredNorm g) (/ 10 ^ 12) then Some g
    else Some (getTangentBasisMatrixODEGradient n g (index - 1))) = Some g)
  /\ (index <> 0%Z -> squaredNorm g > / 10 ^ 12 ->
   (if (index =? 0)%Z || Rleb (squaredNorm g) (/ 10 ^ 12) then Some g
    else Some (getTangentBasisMatrixODEGradient n g (index - 1)))
   = Some (getTangentBasisMatrixODEGradient n g (index - 1))).
Proof.
  unfold Rleb; split.
  - intros [Hi | Hs].
    + subst index; reflexivity.
    + destruct (Rle_dec (squaredNorm g) (/ 10 ^ 12)); [ | contradiction ].
      rewrite orb_true_r; reflexivity.
  - intros Hi Hs.
    apply Z.eqb_neq in Hi; rewrite Hi.
    destruct (Rle_dec (squaredNorm g) (/ 10 ^ 12)); [lra | reflexivity].
Qed.

(** C4 (as amended): for a DOF whose type is not VERTEX, NONE or
    UNSUPPORTED, [getContactForceGradient d] returns the normal gradient
    itself when the basis index is 0 or the normal gradient's squared norm is
    at most 1e-12, and otherwise column [index - 1] of
    [getTangentBasisMatrixODEGradient(normal, normalGradient)]; for VERTEX,
    NONE and UNSUPPORTED it is zero. *)
Theorem getContactForceGradient_cases (c : Contact) (bodyA bodyB : BodyNode)
    (index : Z) (skels : list string) (dof : Dof) :
  let self := mkDCC (ContactConstraint c bodyA bodyB) index skels in
  match getDofContactType self dof with
  | Some (DofContactType.VERTEX | DofContactType.NONE
         | DofContactType.UNSUPPORTED) =>
      getContactForceGradient self dof = Some Vector3_Zero
  | Some _ =>
      exists g, getContactNormalGradient self dof = Some g
      /\ ((index = 0%Z \/ squaredNorm g <= / 10 ^ 12) ->
          getContactForceGradient self dof = Some g)
      /\ (index <> 0%Z -> squaredNorm g > / 10 ^ 12 ->
          getContactForceGradient self dof
          = Some (getTangentBasisMatrixODEGradient (normal c) g (index - 1)))
  | None => False
  end.
Proof.
  cbv zeta.
  destruct (getDofContactType_contact c bodyA bodyB index skels dof) as [t Ht].
  pose proof (getContactNormalGradient_cases c bodyA bodyB index skels dof)
    as Hn; cbv zeta in Hn.
  rewrite Ht in Hn |- *.
  unfold getContactForceGradient; rewrite Ht.
  destruct t; simpl; try reflexivity; rewrite Hn;
    eexists; (split; [reflexivity | apply force_branch]).
Qed.

Lemma touched_iff (self : DCC (BodyNode := BodyNode)) (skel : Skeleton) :
  existsb (String.eqb (getName skel)) (mSkeletons self) = true
  <-> In (getName skel) (mSkeletons self).
Proof.
  rewrite existsb_exists; split.
  - intros [x [Hin Heq]]; apply String.eqb_eq in Heq; subst; exact Hin.
  - intros Hin; exists (getName skel); split; [exact Hin | apply String.eqb_refl].
Qed.

(** C5: [getConstraintForces S] has one entry per DOF of S; when the
    constraint touches S its i-th entry is
    [multiple(d_i) * (worldScrewAxis(d_i) . worldForce)] with
    [worldForce = [point x forceDirection; forceDirection]]; when it does not
    touch S every entry is 0, and an entry of a DOF with [multiple = 0] is
    exactly 0. *)
Theorem getConstraintForces_entries (self : DCC (BodyNode := BodyNode)) (skel : Skeleton) :
  let worldForce := getWorldForce self in
  worldForce = mkVector6 (cross (getContactWorldPosition self)
                                (getContactWorldForceDirection self))
                         (getContactWorldForceDirection self)
  /\ length (getConstraintForces self skel) = length (getDofs skel)
  /\ (In (getName skel) (mSkeletons self) ->
      getConstraintForces self skel
      = map (fun dof => getForceMultiple self dof
                        * dot6 (getWorldScrewAxis dof) worldForce)
            (getDofs skel))
  /\ (~ In (getName skel) (mSkeletons self) ->
      Forall (fun tau => tau = 0) (getConstraintForces self skel))
  /\ (forall i dof, nth_error (getDofs skel) i = Some dof ->
      getForceMultiple self dof = 0 ->
      nth_error (getConstraintForces self skel) i = Some 0).
Proof.
  cbv zeta; unfold getConstraintForces.
  destruct (existsb (String.eqb (getName skel)) (mSkeletons self)) eqn:Ht;
    simpl negb; cbv iota.
  - apply touched_iff in Ht.
    repeat split.
    + apply length_map.
    + intros _; apply map_ext; intros dof.
      destruct (Req_dec_T (getForceMultiple self dof) 0) as [E | E].
      * rewrite E; ring.
      * ring.
    + intros Hn; contradiction.
    + intros i dof Hi Hm; rewrite nth_error_map, Hi; simpl.
      destruct (Req_dec_T (getForceMultiple self dof) 0); [reflexivity | contradiction].
  - assert (Hn : ~ In (getName skel) (mSkeletons self)).
    { rewrite <- touched_iff, Ht; discriminate. }
    repeat split.
    + apply repeat_length.
    + intros Hin; contradiction.
    + intros _; apply Forall_forall; intros x Hx; apply repeat_spec in Hx; exact Hx.
    + intros i dof Hi _.
      assert (Hlt : (i < length (getDofs skel))%nat)
        by (apply nth_error_Some; rewrite Hi; discriminate).
      apply nth_error_repeat; exact Hlt.
Qed.

(** C6: [getScrewAxisGradient row wrt] is the zero 6-vector when wrt is not
    a parent of row and [ad(worldScrewAxis(wrt), worldScrewAxis(row))]
    otherwise; and [getConstraintForceDerivative row wrt] is
    [multiple(row) * (screwAxisGradient(row, wrt) . worldForce +
    worldScrewAxis(row) . worldForceGradient(wrt))] (both undefined together
    when the world-force gradient is). *)
Theorem getConstraintForceDerivative_product_rule (self : DCC (BodyNode := BodyNode)) (row wrt : Dof) :
  (isParentDof wrt row = false -> getScrewAxisGradient row wrt = Vector6_Zero)
  /\ (isParentDof wrt row = true ->
      getScrewAxisGradient row wrt
      = ad (getWorldScrewAxis wrt) (getWorldScrewAxis row))
  /\ (forall g, getContactWorldForceGradient self wrt = Some g ->
      getConstraintForceDerivative self row wrt
      = Some (getForceMultiple self row
              * (dot6 (getScrewAxisGradient row wrt) (getWorldForce self)
                 + dot6 (getWorldScrewAxis row) g)))
  /\ (getContactWorldForceGradient self wrt = None ->
      getConstraintForceDerivative self row wrt = None).
Proof.
  unfold getConstraintForceDerivative; repeat split.
  - intros Hp; unfold getScrewAxisGradient; rewrite Hp; reflexivity.
  - intros Hp; unfold getScrewAxisGradient; rewrite Hp; reflexivity.
  - intros g Hg; rewrite Hg; f_equal; ring.
  - intros Hg; rewrite Hg; reflexivity.
Qed.

(** C10: for a constraint that is not a contact constraint, the contact
    position, normal and force direction are zero, so the world force is
    the zero 6-vector and every entry of [getConstraintForces] is zero,
    although [getForceMultiple] is 1 for every DOF. *)
Theorem non_contact_forces_zero (index : Z) (skels : list string) :
  let self := mkDCC (BodyNode := BodyNode) OtherConstraint index skels in
  getContactWorldPosition self = Vector3_Zero
  /\ getContactWorldNormal self = Vector3_Zero
  /\ getContactWorldForceDirection self = Vector3_Zero
  /\ getWorldForce self = Vector6_Zero
  /\ (forall dof : Dof, getForceMultiple self dof = 1)
  /\ (forall skel : Skeleton,
      Forall (fun tau => tau = 0) (getConstraintForces self skel)).
Proof.
  cbv zeta.
  assert (Hf : getWorldForce (mkDCC (BodyNode := BodyNode) OtherConstraint index skels)
               = Vector6_Zero).
  { unfold getWorldForce, Vector6_Zero, Vector3_Zero, cross; simpl.
    f_equal; f_equal; ring. }
  repeat split; try reflexivity; try exact Hf.
  intros skel; unfold getConstraintForces.
  destruct (existsb _ _); simpl negb; cbv iota.
  - apply Forall_forall; intros x Hx; apply in_map_iff in Hx.
    destruct Hx as [dof [Hx _]]; subst x.
    unfold getForceMultiple; simpl mConstraint; cbv iota.
    destruct (Req_dec_T 1 0); [reflexivity | ].
    rewrite Hf; unfold dot6, dot3, Vector6_Zero, Vector3_Zero; simpl; ring.
  - apply Forall_forall; intros x Hx; apply repeat_spec in Hx; exact Hx.
Qed.

End Properties.

(** * The boxed LCP wrapper *)

(** C9: [DantzigBoxedLcpSolver::solve] never throws: it returns false when
    [dSolveLCP] throws any exception, and [dSolveLCP]'s result otherwise. *)
Theorem solve_catches_all {Exception : Type}
    (dSolveLCP : Z -> list R -> list R -> list R -> option (list R) -> Z ->
                 list R -> list R -> list Z -> bool -> Result Exception bool)
    (n : Z) (A x b : list R) (nub : Z) (lo hi : list R) (findex : list Z)
    (earlyTermination : bool) :
  exists r, solve dSolveLCP n A x b nub lo hi findex earlyTermination
            = Returned r
  /\ match dSolveLCP n A x b None 0%Z lo hi findex earlyTermination with
     | Thrown _ => r = false
     | Returned r' => r = r'
     end.
Proof.
  unfold solve.
  destruct (dSolveLCP n A x b None 0%Z lo hi findex earlyTermination) as [r' | e].
  - exists r'; split; reflexivity.
  - exists false; split; reflexivity.
Qed.

(** * The claims on the concrete world *)

Module ExampleChecks.
Import MathModel Example.

(** The shoulder carries the hand, the elbow does not carry the upper arm,
    the slider carries only the ground. *)
Example ancestors :
  (isParentBody shoulder hand, isParentBody shoulder upperArm,
   isParentBody elbow upperArm, isParentBody elbow hand,
   isParentBody slider ground, isParentBody slider hand)
  = (true, true, false, true, true, false).
Proof. reflexivity. Qed.

Example classification_vertex_face :
  map (getDofContactType (handOnGround ContactType.VERTEX_FACE 0))
      [shoulder; elbow; slider]
  = [Some DofContactType.VERTEX; Some DofContactType.VERTEX;
     Some DofContactType.FACE].
Proof. reflexivity. Qed.

Example classification_edge_edge :
  map (getDofContactType (handOnGround ContactType.EDGE_EDGE 0))
      [shoulder; elbow; slider]
  = [Some DofContactType.EDGE_B; Some DofContactType.EDGE_B;
     Some DofContactType.EDGE_A].
Proof. reflexivity. Qed.

(** C1 at the slider of an edge-edge contact between hand and ground. *)
Lemma getDofContactType_truth_table_witness :
  (type (pointContact ContactType.EDGE_EDGE (mkVector3 2 0 0) unitZ)
     = ContactType.VERTEX_FACE
   \/ type (pointContact ContactType.EDGE_EDGE (mkVector3 2 0 0) unitZ)
     = ContactType.FACE_VERTEX
   \/ type (pointContact ContactType.EDGE_EDGE (mkVector3 2 0 0) unitZ)
     = ContactType.EDGE_EDGE)
  /\ getDofContactType (handOnGround ContactType.EDGE_EDGE 0) slider
     = Some (SpecTable.dofContactType (isParentBody slider hand)
                                      (isParentBody slider ground)
                                      ContactType.EDGE_EDGE).
Proof.
  split.
  - right; right; reflexivity.
  - apply (getDofContactType_truth_table
             (pointContact ContactType.EDGE_EDGE (mkVector3 2 0 0) unitZ)
             hand ground 0 ["arm"; "ground"]%string slider).
    right; right; reflexivity.
Defined.

(** C8 refuted: for an UNSUPPORTED contact between the upper arm and the
    ground, the elbow (an ancestor of neither body) is classified NONE, not
    UNSUPPORTED. *)
Lemma getDofContactType_unsupported_counterexample :
  getContactType (upperArmOnGround ContactType.UNSUPPORTED 0)
    = ContactType.UNSUPPORTED
  /\ getDofContactType (upperArmOnGround ContactType.UNSUPPORTED 0) elbow
     = Some DofContactType.NONE
  /\ getDofContactType (upperArmOnGround ContactType.UNSUPPORTED 0) elbow
     <> Some DofContactType.UNSUPPORTED.
Proof. split; [reflexivity | split; [reflexivity | discriminate]]. Qed.

(** The amended C8 at the elbow of that contact. *)
Lemma getDofContactType_unsupported_witness :
  type (pointContact ContactType.UNSUPPORTED (mkVector3 0 0 0) unitZ)
    = ContactType.UNSUPPORTED
  /\ getDofContactType (upperArmOnGround ContactType.UNSUPPORTED 0) elbow
     = Some (if isParentBody elbow upperArm || isParentBody elbow ground
             then DofContactType.UNSUPPORTED else DofContactType.NONE).
Proof.
  split; [reflexivity | ].
  apply (getDofContactType_unsupported
           (pointContact ContactType.UNSUPPORTED (mkVector3 0 0 0) unitZ)
           upperArm ground 0 ["arm"; "ground"]%string elbow).
  reflexivity.
Defined.

Lemma tilt_small :
  let s := 2 * tiltK / (tiltK ^ 2 + 1) in 0 < s /\ s * s < / 10 ^ 12.
Proof.
  intros s.
  assert (Hs : s = 20000000 / 100000000000001) by (unfold s, tiltK; field).
  rewrite Hs; split; lra.
Qed.

(** C4 refuted: at the shoulder (FACE) of the tilted face-vertex contact,
    row 1, the normal gradient is nonzero with squared norm below 1e-12, and
    [getContactForceGradient] returns that gradient, not zero. *)
Lemma getContactForceGradient_tiny_counterexample :
  getDofContactType tiltedFace shoulder = Some DofContactType.FACE
  /\ exists g,
       getContactNormalGradient tiltedFace shoulder = Some g
       /\ squaredNorm g < / 10 ^ 12
       /\ getContactForceGradient tiltedFace shoulder = Some g
       /\ getContactForceGradient tiltedFace shoulder <> Some Vector3_Zero.
Proof.
  destruct tilt_small as [Hpos Hsq].
  split; [reflexivity | ].
  set (s := 2 * tiltK / (tiltK ^ 2 + 1)) in *.
  assert (Hg : getContactNormalGradient tiltedFace shoulder
               = Some (mkVector3 (- s) 0 0)).
  { cbv -[Rmult Rplus Rminus Ropp Rdiv Rinv pow IZR tiltK s].
    unfold s; f_equal; f_equal; ring. }
  assert (Hn : squaredNorm (mkVector3 (- s) 0 0) < / 10 ^ 12).
  { unfold squaredNorm, dot3; simpl; nra. }
  assert (Hf : getContactForceGradient tiltedFace shoulder
               = Some (mkVector3 (- s) 0 0)).
  { unfold getContactForceGradient.
    change (getDofContactType tiltedFace shoulder)
      with (Some DofContactType.FACE).
    cbv [DofContactType.eqb orb].
    rewrite Hg; unfold Rleb.
    destruct (Rle_dec (squaredNorm (mkVector3 (- s) 0 0)) (/ 10 ^ 12));
      [ | lra].
    reflexivity. }
  exists (mkVector3 (- s) 0 0); repeat split; try assumption.
  rewrite Hf; intros E; injection E; intros; lra.
Qed.

End ExampleChecks.

(** * Properties of the Jacobians and world-level assembly *)

Section JacobianProperties.

Context {Dof BodyNode Isometry3d Skeleton : Type}.
Context `{DartMath Isometry3d} `{Kinematics Dof BodyNode Isometry3d Skeleton}
        `{TangentBasis}.

Ltac split_parents' dof bodyA bodyB :=
  destruct (isParentBody dof bodyA), (isParentBody dof bodyB).


(** For an EDGE_A or EDGE_B DOF, [getContactPositionGradient] is
    [getContactPointGradient] applied to the current edges ([getEdges]) and
    their gradients ([getEdgeGradient]). *)
Theorem getContactPositionGradient_from_edges (c : Contact)
    (bodyA bodyB : BodyNode) (index : Z) (skels : list string) (dof : Dof)
    (Hedge : getDofContactType
               (mkDCC (ContactConstraint c bodyA bodyB) index skels) dof
             = Some DofContactType.EDGE_A
             \/ getDofContactType
                  (mkDCC (ContactConstraint c bodyA bodyB) index skels) dof
                = Some DofContactType.EDGE_B) :
  let self := mkDCC (ContactConstraint c bodyA bodyB) index skels in
  let e := getEdges self in
  exists g, getEdgeGradient self dof = Some g
  /\ getContactPositionGradient self dof
     = Some (getContactPointGradient
               (EdgeData.edgeAPos e) (EdgeData.edgeAPos g)
               (EdgeData.edgeADir e) (EdgeData.edgeADir g)
               (EdgeData.edgeBPos e) (EdgeData.edgeBPos g)
               (EdgeData.edgeBDir e) (EdgeData.edgeBDir g)).
Proof.
  cbv zeta; revert Hedge.
  unfold getEdgeGradient, getContactPositionGradient, getEdges,
    getDofContactType, getContactType; simpl.
  split_parents' dof bodyA bodyB; destruct (type c); simpl;
    intros [E | E]; try discriminate; eexists; split; reflexivity.
Qed.

(** For a DOF of type NONE or UNSUPPORTED the world 6-force gradient is
    zero; for a VERTEX DOF only its moment part [positionGradient x
    forceDirection] is nonzero. *)
Theorem getContactWorldForceGradient_cases (c : Contact)
    (bodyA bodyB : BodyNode) (index : Z) (skels : list string) (dof : Dof) :
  let self := mkDCC (ContactConstraint c bodyA bodyB) index skels in
  match getDofContactType self dof with
  | Some (DofContactType.NONE | DofContactType.UNSUPPORTED) =>
      getContactWorldForceGradient self dof = Some Vector6_Zero
  | Some DofContactType.VERTEX =>
      exists pg, getContactPositionGradient self dof = Some pg
      /\ getContactWorldForceGradient self dof
         = Some (mkVector6 (cross pg (getContactWorldForceDirection self))
                           Vector3_Zero)
  | _ => True
  end.
Proof.
  cbv zeta; unfold getContactWorldForceGradient, getContactForceGradient,
    getContactPositionGradient, getDofContactType, getContactType; simpl.
  split_parents' dof bodyA bodyB; destruct (type c); simpl; try exact I;
    try (eexists; split; [reflexivity | ]);
    unfold Vector6_Zero, Vector3_Zero, Vector3_add, cross; simpl;
    f_equal; f_equal; try reflexivity; f_equal; ring.
Qed.

Lemma mapOpt_pair {A P D V : Type} (f : A -> option P) (g : A -> option D)
    (h : P -> D -> V) (l : list A) :
  match mapOpt f l with
  | None => None
  | Some ps =>
    match mapOpt g l with
    | None => None
    | Some ds => Some (map (fun '(p, d) => h p d) (combine ps ds))
    end
  end
  = mapOpt (fun x => match g x with
                     | None => None
                     | Some d => match f x with
                                 | None => None
                                 | Some p => Some (h p d)
                                 end
                     end) l.
Proof.
  induction l as [| x rest IH]; simpl; [reflexivity | ].
  destruct (f x) as [p | ] eqn:Ef; destruct (g x) as [d | ] eqn:Eg; simpl;
    try reflexivity.
  - destruct (mapOpt f rest) as [ps | ] eqn:Efr;
      destruct (mapOpt g rest) as [ds | ] eqn:Egr; simpl in *;
      rewrite <- IH; reflexivity.
  - destruct (mapOpt f rest); reflexivity.
Qed.

Lemma getContactForceJacobian_columns' (self : DCC (BodyNode := BodyNode))
    (dofs : list Dof) :
  getContactForceJacobian self dofs
  = mapOpt (getContactWorldForceGradient self) dofs.
Proof.
  unfold getContactForceJacobian, getContactPositionJacobian,
    getContactForceDirectionJacobian, getContactWorldForceGradient.
  apply (mapOpt_pair (getContactPositionGradient self)
           (getContactForceGradient self)
           (fun p d => mkVector6
                         (Vector3_add (cross (getContactWorldPosition self) d)
                                      (cross p (getContactWorldForceDirection self)))
                         d)).
Qed.

(** The column of DOF [d] in [getContactForceJacobian] (world or skeleton
    overload) is [getContactWorldForceGradient d]; the Jacobian fails
    exactly when one of the column gradients does. *)
Theorem getContactForceJacobian_columns (self : DCC (BodyNode := BodyNode))
    (dofs : list Dof) :
  getContactForceJacobian self dofs
  = mapOpt (getContactWorldForceGradient self) dofs.
Proof. apply getContactForceJacobian_columns'. Qed.

End JacobianProperties.

(** ** List facts for the matrix assembly *)

Lemma mapOpt_ext {A B : Type} (f g : A -> option B) (l : list A) :
  (forall x, f x = g x) -> mapOpt f l = mapOpt g l.
Proof.
  intros E; induction l as [| x rest IH]; simpl; [reflexivity | ].
  rewrite E, IH; reflexivity.
Qed.

Lemma mapOpt_col {A B C : Type} (h : A -> option B) (K : A -> B -> C)
    (l : list A) :
  mapOpt (fun x => match h x with None => None | Some y => Some (K x y) end) l
  = match mapOpt h l with
    | None => None
    | Some ys => Some (map (fun '(x, y) => K x y) (combine l ys))
    end.
Proof.
  induction l as [| x rest IH]; simpl; [reflexivity | ].
  destruct (h x); [ | reflexivity].
  rewrite IH; destruct (mapOpt h rest); reflexivity.
Qed.

Lemma mapOpt_length {A B : Type} (h : A -> option B) (l : list A) ys :
  mapOpt h l = Some ys -> length ys = length l.
Proof.
  revert ys; induction l as [| x rest IH]; simpl; intros ys E.
  - injection E as <-; reflexivity.
  - destruct (h x); [ | discriminate].
    destruct (mapOpt h rest) eqn:Er; [ | discriminate].
    injection E as <-; simpl; rewrite (IH _ eq_refl); reflexivity.
Qed.

Lemma mapOpt_Forall2 {A B : Type} (h : A -> option B) (l : list A) ys :
  mapOpt h l = Some ys -> Forall2 (fun x y => h x = Some y) l ys.
Proof.
  revert ys; induction l as [| x rest IH]; simpl; intros ys E.
  - injection E as <-; constructor.
  - destruct (h x) eqn:Ex; [ | discriminate].
    destruct (mapOpt h rest) eqn:Er; [ | discriminate].
    injection E as <-; constructor; [exact Ex | apply IH; reflexivity].
Qed.

Lemma mapOpt_app {A B : Type} (h : A -> option B) (l1 l2 : list A) :
  mapOpt h (l1 ++ l2)
  = match mapOpt h l1, mapOpt h l2 with
    | Some a, Some b => Some (a ++ b)
    | _, _ => None
    end.
Proof.
  induction l1 as [| x rest IH]; simpl.
  - destruct (mapOpt h l2); reflexivity.
  - destruct (h x); [ | reflexivity].
    rewrite IH; destruct (mapOpt h rest), (mapOpt h l2); reflexivity.
Qed.

Lemma mapOpt_flat_map {A B C : Type} (h : B -> option C) (g : A -> list B)
    (l : list A) :
  mapOpt h (flat_map g l)
  = match mapOpt (fun x => mapOpt h (g x)) l with
    | None => None
    | Some ls => Some (concat ls)
    end.
Proof.
  induction l as [| x rest IH]; simpl; [reflexivity | ].
  rewrite mapOpt_app, IH.
  destruct (mapOpt h (g x)); [ | reflexivity].
  destruct (mapOpt (fun x0 => mapOpt h (g x0)) rest); reflexivity.
Qed.

Lemma combine_app {A B : Type} (a1 a2 : list A) (b1 b2 : list B) :
  length a1 = length b1 ->
  combine (a1 ++ a2) (b1 ++ b2) = combine a1 b1 ++ combine a2 b2.
Proof.
  revert b1; induction a1 as [| x rest IH]; intros [| y b1] E;
    simpl in *; try discriminate; [reflexivity | ].
  rewrite IH by lia; reflexivity.
Qed.

Lemma map_as_seq {A B : Type} (f : A -> B) (g : nat -> B) (l : list A) :
  (forall i x, nth_error l i = Some x -> g i = f x) ->
  map f l = map g (seq 0 (length l)).
Proof.
  revert g; induction l as [| x rest IH]; intros g E; simpl; [reflexivity | ].
  rewrite (E 0%nat x eq_refl); f_equal.
  rewrite <- seq_shift, map_map.
  apply IH; intros i y Hy; apply (E (S i)); exact Hy.
Qed.

Lemma firstn_prefix {A : Type} (l1 l2 : list A) :
  firstn (length l1) (l1 ++ l2) = l1.
Proof. induction l1 as [| x rest IH]; simpl; [reflexivity | rewrite IH; reflexivity]. Qed.

Lemma map_const_repeat {A B : Type} (c : B) (l : list A) :
  map (fun _ => c) l = repeat c (length l).
Proof. induction l as [| x rest IH]; simpl; [reflexivity | rewrite IH; reflexivity]. Qed.

Section WorldProperties.

Context {Dof BodyNode Isometry3d Skeleton : Type}.
Context `{DartMath Isometry3d} `{Kinematics Dof BodyNode Isometry3d Skeleton}
        `{TangentBasis}.

Lemma getConstraintForces_length (self : DCC (BodyNode := BodyNode))
    (skel : Skeleton) :
  length (getConstraintForces self skel) = length (getDofs skel).
Proof.
  unfold getConstraintForces.
  destruct (negb _); [apply repeat_length | apply length_map].
Qed.

Lemma writeSkeletonForces_prefix (self : DCC (BodyNode := BodyNode))
    (skels : list Skeleton) :
  forall taus cursor,
  (cursor + length (flat_map getDofs skels))%nat = length taus ->
  writeSkeletonForces self taus cursor skels
  = firstn cursor taus ++ flat_map (getConstraintForces self) skels.
Proof.
  induction skels as [| skel rest IH]; intros taus cursor E; simpl in *.
  - rewrite app_nil_r, firstn_all2 by lia; reflexivity.
  - rewrite length_app in E.
    pose proof (getConstraintForces_length self skel) as Ls.
    unfold segmentAssign.
    assert (Lc : length (firstn cursor taus) = cursor)
      by (rewrite length_firstn; lia).
    rewrite IH.
    + replace (cursor + length (getDofs skel))%nat
        with (length (firstn cursor taus ++ getConstraintForces self skel))
        by (rewrite length_app; lia).
      rewrite app_assoc, firstn_prefix, <- app_assoc; reflexivity.
    + rewrite !length_app, length_skipn; lia.
Qed.

(** [getConstraintForces(world)] is the concatenation, in skeleton order,
    of [getConstraintForces(skel)] over the world's skeletons: no entry of
    the uninitialised vector survives, and its length is the world's DOF
    count. *)
Theorem getConstraintForcesWorld_concat (self : DCC (BodyNode := BodyNode))
    (world : World) (taus0 : list R)
    (Hlen : length taus0 = length (worldDofs world)) :
  getConstraintForcesWorld self world taus0
  = flat_map (getConstraintForces self) (worldSkeletons world)
  /\ length (getConstraintForcesWorld self world taus0)
     = length (worldDofs world).
Proof.
  unfold getConstraintForcesWorld.
  rewrite writeSkeletonForces_prefix by (unfold worldDofs in Hlen; lia).
  simpl; split; [reflexivity | ].
  unfold worldDofs; induction (worldSkeletons world) as [| s rest IH];
    simpl; [reflexivity | ].
  rewrite !length_app, getConstraintForces_length, IH; reflexivity.
Qed.

(** The shared loop in closed form: the force Jacobian over [cols] is the
    column map of [getContactWorldForceGradient]. *)
Lemma constraintForcesJacobianOf_closed (self : DCC (BodyNode := BodyNode))
    (rows cols : list Dof) :
  constraintForcesJacobianOf self rows cols
  = match mapOpt (getContactWorldForceGradient self) cols with
    | None => None
    | Some fj =>
      Some (map (fun rowDof =>
                   map (fun '(wrtDof, forceGradient) =>
                          getForceMultiple self rowDof
                          * (dot6 (getScrewAxisGradient rowDof wrtDof)
                                  (getWorldForce self)
                             + dot6 (getWorldScrewAxis rowDof) forceGradient))
                       (combine cols fj))
                rows)
    end.
Proof.
  unfold constraintForcesJacobianOf; rewrite getContactForceJacobian_columns'.
  reflexivity.
Qed.

Lemma mapOpt_Some {A B : Type} (F : A -> B) (l : list A) :
  mapOpt (fun x => Some (F x)) l = Some (map F l).
Proof. induction l as [| x rest IH]; simpl; [reflexivity | rewrite IH; reflexivity]. Qed.

Lemma derivative_row (self : DCC (BodyNode := BodyNode)) (r : Dof)
    (cols : list Dof) :
  mapOpt (fun c => getConstraintForceDerivative self r c) cols
  = match mapOpt (getContactWorldForceGradient self) cols with
    | None => None
    | Some fj =>
      Some (map (fun '(wrtDof, forceGradient) =>
                   getForceMultiple self r
                   * (dot6 (getScrewAxisGradient r wrtDof) (getWorldForce self)
                      + dot6 (getWorldScrewAxis r) forceGradient))
                (combine cols fj))
    end.
Proof.
  rewrite <- (mapOpt_col (getContactWorldForceGradient self)
               (fun wrtDof forceGradient =>
                  getForceMultiple self r
                  * (dot6 (getScrewAxisGradient r wrtDof) (getWorldForce self)
                     + dot6 (getWorldScrewAxis r) forceGradient))).
  apply mapOpt_ext; intros c; unfold getConstraintForceDerivative.
  destruct (getContactWorldForceGradient self c); [ | reflexivity].
  f_equal; ring.
Qed.

(** [getConstraintForcesJacobian(world)] is the matrix whose entry
    [(row, wrt)] is [getConstraintForceDerivative(dofs[row], dofs[wrt])]
    over the world's DOFs; it fails exactly when some derivative does. *)
Theorem getConstraintForcesJacobianWorld_entries
    (self : DCC (BodyNode := BodyNode)) (world : World) :
  getConstraintForcesJacobianWorld self world
  = mapOpt (fun rowDof =>
              mapOpt (fun wrtDof =>
                        getConstraintForceDerivative self rowDof wrtDof)
                     (worldDofs world))
           (worldDofs world).
Proof.
  unfold getConstraintForcesJacobianWorld.
  rewrite constraintForcesJacobianOf_closed.
  rewrite (mapOpt_ext _ _ _ (fun r => derivative_row self r (worldDofs world))).
  destruct (mapOpt (getContactWorldForceGradient self) (worldDofs world))
    as [fj | ] eqn:E.
  - symmetry; apply (mapOpt_Some (fun r => map _ (combine _ fj))).
  - destruct (worldDofs world); [discriminate | reflexivity].
Qed.

(** In [getConstraintForcesJacobian(world)] of a contact between A and B,
    the row of a DOF that is an ancestor of both bodies or of neither is all
    zeros. *)
Theorem getConstraintForcesJacobianWorld_zero_row (c : Contact)
    (bodyA bodyB : BodyNode) (index : Z) (skels : list string) (world : World)
    (row : nat) (rowDof : Dof)
    (Hrow : nth_error (worldDofs world) row = Some rowDof)
    (Hpar : isParentBody rowDof bodyA = isParentBody rowDof bodyB) :
  match getConstraintForcesJacobianWorld
          (mkDCC (ContactConstraint c bodyA bodyB) index skels) world with
  | Some M => nth_error M row = Some (repeat 0 (length (worldDofs world)))
  | None => True
  end.
Proof.
  unfold getConstraintForcesJacobianWorld.
  rewrite constraintForcesJacobianOf_closed.
  set (self := mkDCC (ContactConstraint c bodyA bodyB) index skels).
  destruct (mapOpt (getContactWorldForceGradient self) (worldDofs world))
    as [fj | ] eqn:E; [ | exact I].
  assert (Hm : getForceMultiple self rowDof = 0).
  { unfold getForceMultiple; simpl; rewrite Hpar.
    destruct (isParentBody rowDof bodyB); reflexivity. }
  rewrite nth_error_map, Hrow; simpl; f_equal.
  rewrite Hm.
  rewrite (map_ext _ (fun _ => 0)) by (intros [a b]; ring).
  rewrite map_const_repeat, length_combine, (mapOpt_length _ _ _ E).
  rewrite Nat.min_id; reflexivity.
Qed.

Lemma hconcat_blocks (self : DCC (BodyNode := BodyNode))
    (rows : list Dof) (skels : list Skeleton) (fjs : list (list Vector6))
    (Hf : Forall2 (fun s fj => length fj = length (getDofs s)) skels fjs) :
  let entry rowDof '(wrtDof, forceGradient) :=
    getForceMultiple self rowDof
    * (dot6 (getScrewAxisGradient rowDof wrtDof) (getWorldForce self)
       + dot6 (getWorldScrewAxis rowDof) forceGradient) in
  hconcat (length rows)
    (map (fun '(s, fj) => map (fun r => map (entry r) (combine (getDofs s) fj))
                              rows)
         (combine skels fjs))
  = map (fun r => map (entry r) (combine (flat_map getDofs skels) (concat fjs)))
        rows.
Proof.
  intros entry; unfold hconcat; symmetry; apply map_as_seq.
  intros i r Hr.
  induction Hf as [| s fj skels' fjs' Hl Hf IH]; simpl; [reflexivity | ].
  rewrite combine_app by (symmetry; exact Hl).
  rewrite map_app, IH; f_equal.
  rewrite (nth_error_nth _ _ _ (eq_trans (nth_error_map _ _ _)
                                         (f_equal (option_map _) Hr))).
  reflexivity.
Qed.

(** [getConstraintForcesJacobian(skels)], assembled block by block from
    [getConstraintForcesJacobian(skels, wrt)], equals
    [getConstraintForcesJacobian(world)] for a world holding exactly [skels]
    (in that order). *)
Theorem getConstraintForcesJacobianSkels_world
    (self : DCC (BodyNode := BodyNode)) (skels : list Skeleton) :
  getConstraintForcesJacobianSkels self skels
  = getConstraintForcesJacobianWorld self (mkWorld skels).
Proof.
  unfold getConstraintForcesJacobianSkels, getConstraintForcesJacobianWorld,
    getConstraintForcesJacobianSkelsWrt, worldDofs; simpl.
  rewrite (mapOpt_ext _ _ _
             (fun s => constraintForcesJacobianOf_closed self
                         (flat_map getDofs skels) (getDofs s))).
  rewrite constraintForcesJacobianOf_closed.
  rewrite mapOpt_col, mapOpt_flat_map.
  destruct (mapOpt (fun s => mapOpt (getContactWorldForceGradient self)
                                    (getDofs s)) skels)
    as [fjs | ] eqn:E; [ | reflexivity].
  f_equal.
  rewrite (map_ext (fun '(x, y) => _) 
             (fun '(s, fj) => map (fun r => map _ (combine (getDofs s) fj))
                                  (flat_map getDofs skels)))
    by (intros [x y]; reflexivity).
  apply hconcat_blocks.
  apply mapOpt_Forall2 in E.
  induction E as [| s fj skels' fjs' Hs E IH]; constructor;
    [apply (mapOpt_length _ _ _ Hs) | exact IH].
Qed.

End WorldProperties.

(** * Properties of the ancestor tests *)

Module TreeProperties.
Import Tree.

Lemma walk_iff (joints : list Joint) (target : nat) (fuel : nat) :
  forall j, walk joints fuel target j = true
            <-> exists n, (n < fuel)%nat /\ climbs joints target n j.
Proof.
  induction fuel as [| fuel IH]; intros j; simpl.
  - split; [discriminate | intros [n [Hn _]]; lia].
  - destruct (Nat.eqb (jointId j) target) eqn:E.
    + apply Nat.eqb_eq in E; split; [ | reflexivity].
      intros _; exists 0%nat; split; [lia | constructor; exact E].
    + apply Nat.eqb_neq in E.
      destruct (parentJoint j) as [p | ] eqn:Ep.
      * destruct (lookupJoint joints p) as [pj | ] eqn:El.
        -- rewrite IH; split.
           ++ intros [n [Hn Hc]]; exists (S n); split; [lia | ].
              econstructor; eassumption.
           ++ intros [n [Hn Hc]].
              inversion Hc as [j' Hid | n' j' p' pj' Hne Hp Hl Hc']; subst.
              ** contradiction.
              ** rewrite Ep in Hp; injection Hp as <-.
                 rewrite El in Hl; injection Hl as <-.
                 exists n'; split; [lia | exact Hc'].
        -- split; [discriminate | ].
           intros [n [_ Hc]].
           inversion Hc as [j' Hid | n' j' p' pj' Hne Hp Hl Hc']; subst;
             [contradiction | ].
           rewrite Ep in Hp; injection Hp as <-; congruence.
      * split; [discriminate | ].
        intros [n [_ Hc]].
        inversion Hc as [j' Hid | n' j' p' pj' Hne Hp Hl Hc']; subst;
          [contradiction | congruence].
Qed.

(** [isParent(dof, node)] holds exactly when the DOF's joint and the node's
    parent joint are both known, belong to the same skeleton (by name) and
    tree, the DOF's joint does not come later in the tree, and climbing
    parent joints from the node's parent joint meets the DOF's joint within
    as many steps as there are joints. *)
Theorem isParentBody_iff (joints : list Joint) (dof : Dof) (node : BodyNode) :
  isParentBody joints dof node = true
  <-> exists dofJ nodeJ n,
        lookupJoint joints (dofJoint dof) = Some dofJ
        /\ lookupJoint joints (bodyParentJoint node) = Some nodeJ
        /\ skeletonName dofJ = skeletonName nodeJ
        /\ treeIndex dofJ = treeIndex nodeJ
        /\ (indexInTree dofJ <= indexInTree nodeJ)%nat
        /\ (n <= length joints)%nat
        /\ climbs joints (jointId dofJ) n nodeJ.
Proof.
  unfold isParentBody.
  destruct (lookupJoint joints (dofJoint dof)) as [dJ | ] eqn:Ed.
  2: { split; [discriminate | intros (dJ & nJ & n & H1 & _); discriminate]. }
  destruct (lookupJoint joints (bodyParentJoint node)) as [nJ | ] eqn:En.
  2: { split; [discriminate | intros (dJ' & nJ & n & H1 & H2 & _); discriminate]. }
  unfold sameTreeAndBefore.
  destruct (String.eqb (skeletonName dJ) (skeletonName nJ)) eqn:Es;
  destruct (Nat.eqb (treeIndex dJ) (treeIndex nJ)) eqn:Et;
  destruct (Nat.leb (indexInTree dJ) (indexInTree nJ)) eqn:Ei; cbn [negb andb];
    try (split; [discriminate | ];
         intros (dJ' & nJ' & n & H1 & H2 & Hs & Ht & Hi & _);
         injection H1 as <-; injection H2 as <-;
         first [ apply String.eqb_neq in Es; contradiction
               | apply Nat.eqb_neq in Et; contradiction
               | apply Nat.leb_gt in Ei; lia ]).
  rewrite walk_iff; split.
  - intros [n [Hn Hc]]; exists dJ, nJ, n.
    apply String.eqb_eq in Es; apply Nat.eqb_eq in Et; apply Nat.leb_le in Ei.
    repeat split; (assumption || lia).
  - intros (dJ' & nJ' & n & H1 & H2 & _ & _ & _ & Hn & Hc).
    injection H1 as <-; injection H2 as <-.
    exists n; split; [lia | exact Hc].
Qed.

Lemma lookupJoint_id (joints : list Joint) (id : nat) (j : Joint) :
  lookupJoint joints id = Some j -> jointId j = id.
Proof.
  unfold lookupJoint; intros E; apply find_some in E.
  apply Nat.eqb_eq; exact (proj2 E).
Qed.

(** A DOF of a body's own parent joint is an ancestor of that body, once the
    joint is known. *)
Theorem isParentBody_own_joint (joints : list Joint) (j : Joint) (i : nat)
    (Hj : lookupJoint joints (jointId j) = Some j) :
  isParentBody joints (mkDof (jointId j) i) (mkBodyNode (jointId j)) = true.
Proof.
  unfold isParentBody; simpl; rewrite Hj.
  unfold sameTreeAndBefore; rewrite String.eqb_refl, Nat.eqb_refl,
    Nat.leb_refl; simpl.
  rewrite Nat.eqb_refl; reflexivity.
Qed.


End TreeProperties.

(** * The properties above on the arm-and-ground example *)

Module ExtraChecks.
Import Example.
#[local] Existing Instances MathModel.dartMath MathModel.tangentBasis.

Definition elbowJoint : Tree.Joint := Tree.mkJoint 1 "arm" 0 1 (Some 0%nat).

(** The slider of an edge-edge contact between the hand and the ground moves
    edge A. *)
Lemma getContactPositionGradient_from_edges_witness :
  (getDofContactType (handOnGround ContactType.EDGE_EDGE 0) slider
     = Some DofContactType.EDGE_A
   \/ getDofContactType (handOnGround ContactType.EDGE_EDGE 0) slider
     = Some DofContactType.EDGE_B)
  /\ exists g,
       getEdgeGradient (handOnGround ContactType.EDGE_EDGE 0) slider = Some g
       /\ getContactPositionGradient (handOnGround ContactType.EDGE_EDGE 0) slider
          = Some (getContactPointGradient
                    (EdgeData.edgeAPos (getEdges (handOnGround ContactType.EDGE_EDGE 0)))
                    (EdgeData.edgeAPos g)
                    (EdgeData.edgeADir (getEdges (handOnGround ContactType.EDGE_EDGE 0)))
                    (EdgeData.edgeADir g)
                    (EdgeData.edgeBPos (getEdges (handOnGround ContactType.EDGE_EDGE 0)))
                    (EdgeData.edgeBPos g)
                    (EdgeData.edgeBDir (getEdges (handOnGround ContactType.EDGE_EDGE 0)))
                    (EdgeData.edgeBDir g)).
Proof.
  split; [left; reflexivity | ].
  apply (getContactPositionGradient_from_edges
           (pointContact ContactType.EDGE_EDGE (mkVector3 2 0 0) unitZ)
           hand ground 0 ["arm"; "ground"]%string slider).
  left; reflexivity.
Defined.

(** The world of the arm and the ground, written over a vector holding
    [1, 2, 3]. *)
Lemma getConstraintForcesWorld_concat_witness :
  length [1; 2; 3] = length (worldDofs (mkWorld [arm; groundSkel]))
  /\ getConstraintForcesWorld (handOnGround ContactType.VERTEX_FACE 0)
       (mkWorld [arm; groundSkel]) [1; 2; 3]
     = flat_map (getConstraintForces (handOnGround ContactType.VERTEX_FACE 0))
                [arm; groundSkel]
  /\ length (getConstraintForcesWorld (handOnGround ContactType.VERTEX_FACE 0)
               (mkWorld [arm; groundSkel]) [1; 2; 3])
     = length (worldDofs (mkWorld [arm; groundSkel])).
Proof.
  split; [reflexivity | ].
  apply (getConstraintForcesWorld_concat
           (handOnGround ContactType.VERTEX_FACE 0) (mkWorld [arm; groundSkel])
           [1; 2; 3]).
  reflexivity.
Defined.

(** The elbow (row 1) is an ancestor of neither the upper arm nor the
    ground. *)
Lemma getConstraintForcesJacobianWorld_zero_row_witness :
  nth_error (worldDofs (mkWorld [arm; groundSkel])) 1 = Some elbow
  /\ isParentBody elbow upperArm = isParentBody elbow ground
  /\ match getConstraintForcesJacobianWorld
             (upperArmOnGround ContactType.VERTEX_FACE 0)
             (mkWorld [arm; groundSkel]) with
     | Some M => nth_error M 1
                 = Some (repeat 0 (length (worldDofs (mkWorld [arm; groundSkel]))))
     | None => True
     end.
Proof.
  split; [reflexivity | split; [reflexivity | ]].
  apply (getConstraintForcesJacobianWorld_zero_row
           (pointContact ContactType.VERTEX_FACE (mkVector3 0 0 0) unitZ)
           upperArm ground 0 ["arm"; "ground"]%string
           (mkWorld [arm; groundSkel]) 1 elbow); reflexivity.
Defined.

(** The elbow joint's DOF is an ancestor of the hand. *)
Lemma isParentBody_own_joint_witness :
  Tree.lookupJoint joints (Tree.jointId elbowJoint) = Some elbowJoint
  /\ Tree.isParentBody joints (Tree.mkDof (Tree.jointId elbowJoint) 0)
       (Tree.mkBodyNode (Tree.jointId elbowJoint)) = true.
Proof.
  split; [reflexivity | ].
  apply (TreeProperties.isParentBody_own_joint joints elbowJoint 0).
  reflexivity.
Defined.


End ExtraChecks.
